(** * genmethods: a shallow embedding of the method generator

    The program walks the declarations of a loaded Go package, picks the
    free functions whose first parameter has one of a fixed set of handle
    types, and builds for each a method that forwards to the function.

    The embedding follows [main.go] function by function.  The [Gen]
    value the Go code mutates through a pointer is threaded as the state
    of a small state-and-error monad whose outcomes are a normal return,
    a returned [error], or a panic.  Calls to the diagnostic logger
    ([clog.Debugln], [clog.Infoln]) write to a stream no function reads
    back and are left out. *)

From Stdlib Require Import ZArith Lia.
From stdpp Require Import base option list strings gmap.

Set Warnings "-register-all".

(** ** Source positions ([go/token]) *)

Module token.
Definition Pos := Z.
Definition NoPos : Pos := 0%Z.
(** A file set only serves to turn positions into file names and line
    numbers; it is carried around and handed to the printer. *)
Definition FileSet := list (string * Pos).
Inductive Token := IMPORT | CONST | TYPE | VAR.
End token.

(** ** Syntax trees ([go/ast])

    Field names are prefixed with the name of their struct, because
    several structs of [go/ast] have a field [Name], [Type], [List] or
    [Doc].  Pointer fields that [go/ast] documents as "or nil" are
    options; those it documents as non-nil are plain values. *)

Module ast.
Import token.

Record Ident := { Ident_NamePos : Pos; Ident_Name : string }.

(** [ast.NewIdent]: an identifier without position. *)
Definition NewIdent (name : string) : Ident :=
  {| Ident_NamePos := NoPos; Ident_Name := name |}.

(** The [String] method of a non-nil identifier. *)
Definition Ident_String (id : Ident) : string := Ident_Name id.

Inductive Expr :=
| Expr_Ident (id : Ident)
| StarExpr (Star : Pos) (X : Expr)
| SelectorExpr (X : Expr) (Sel : Ident)
| ArrayType (Lbrack : Pos) (Len : option Expr) (Elt : Expr)
| Ellipsis (Dots : Pos) (Elt : option Expr)
| CallExpr (Fun : Expr) (Lparen : Pos) (Args : list Expr)
           (EllipsisPos : Pos) (Rparen : Pos).

Record Comment := { Comment_Slash : Pos; Comment_Text : string }.
Record CommentGroup := { CommentGroup_List : list Comment }.

Record Field := { Field_Names : list Ident; Field_Type : Expr }.
Record FieldList :=
  { FieldList_Opening : Pos;
    FieldList_List : list Field;
    FieldList_Closing : Pos }.

Record FuncType :=
  { FuncType_Func : Pos;
    FuncType_TypeParams : option FieldList;
    FuncType_Params : FieldList;
    FuncType_Results : option FieldList }.

(** Statements.  The generator builds the first two kinds and never
    looks inside the body of a function it reads. *)
Inductive Stmt :=
| ReturnStmt (Return : Pos) (Results : list Expr)
| ExprStmt (X : Expr)
| EmptyStmt (Semicolon : Pos).

Record BlockStmt :=
  { BlockStmt_Lbrace : Pos;
    BlockStmt_List : list Stmt;
    BlockStmt_Rbrace : Pos }.

Record FuncDecl :=
  { FuncDecl_Doc : option CommentGroup;
    FuncDecl_Recv : option FieldList;
    FuncDecl_Name : Ident;
    FuncDecl_Type : FuncType;
    FuncDecl_Body : option BlockStmt }.

(** [import], [const], [type] and [var] declarations; their specs are
    never read. *)
Record GenDecl := { GenDecl_TokPos : Pos; GenDecl_Tok : Token }.

(** The three kinds of top-level declaration of [go/ast]. *)
Inductive Decl :=
| Decl_BadDecl (From To : Pos)
| Decl_GenDecl (d : GenDecl)
| Decl_FuncDecl (d : FuncDecl).

Record File :=
  { File_Name : Ident;
    File_FileStart : Pos;
    File_Decls : list Decl }.
End ast.

(** ** Resolved types ([go/types]) *)

Module types.
(** The program uses a [types.Type] through its [String] method only. *)
Record Ty := { Ty_String : string }.

(** A nil [Type] is [None]. *)
Record TypeAndValue := { TypeAndValue_Type : option Ty }.

(** [Info.Types] is a Go map keyed by expression nodes. *)
Record Info := { Info_Types : ast.Expr -> option TypeAndValue }.

(** [info.Types[e].Type]: a key that is absent yields the zero
    [TypeAndValue], whose [Type] is nil. *)
Definition TypeOf (info : Info) (e : ast.Expr) : option Ty :=
  match Info_Types info e with
  | Some tv => TypeAndValue_Type tv
  | None => None
  end.
End types.

(** ** Loaded packages ([golang.org/x/tools/go/packages]) *)

Module packages.
Record Package :=
  { Package_PkgPath : string;
    Package_Name : string;
    Package_Fset : token.FileSet;
    Package_Syntax : list ast.File;
    Package_TypesInfo : types.Info }.
End packages.

Import token ast types packages.

(** ** Errors, outcomes and the monad *)

(** An [error] value: a message, possibly wrapped by [errors.WithStack]. *)
Inductive error :=
| Errorf (msg : string)
| WithStack (err : error).

Inductive outcome (S A : Type) :=
| Ok (a : A) (s : S)
| Err (err : error) (s : S)
| Panic (v : string).
Arguments Ok {S A} a s.
Arguments Err {S A} err s.
Arguments Panic {S A} v.

Definition M (S A : Type) : Type := S -> outcome S A.

#[global] Instance M_ret {S} : MRet (M S) := fun A a s => Ok a s.

#[global] Instance M_bind {S} : MBind (M S) := fun A B k m s =>
  match m s with
  | Ok a s' => k a s'
  | Err e s' => Err e s'
  | Panic v => Panic v
  end.

Definition get {S} : M S S := fun s => Ok s s.
Definition modify {S} (f : S -> S) : M S unit := fun s => Ok tt (f s).
Definition throw {S A} (err : error) : M S A := fun s => Err err s.
Definition panic {S A} (v : string) : M S A := fun _ => Panic v.

(** [if err := m; err != nil { return errors.WithStack(err) }] *)
Definition try {S A} (m : M S A) : M S A := fun s =>
  match m s with
  | Err e s' => Err (WithStack e) s'
  | r => r
  end.

(** [for _, x := range l { body }] where [body] may return early with an
    error. *)
Fixpoint for_range {S A} (l : list A) (body : A -> M S unit) : M S unit :=
  match l with
  | [] => mret tt
  | x :: l' => body x ;; for_range l' body
  end.

(** [l[i]]: an index out of range panics. *)
Definition index {S A} (l : list A) (i : nat) : M S A :=
  match l !! i with
  | Some x => mret x
  | None => panic "runtime error: index out of range"
  end.

(** [l[i:]]: a lower bound beyond the length panics. *)
Definition slice_from {S A} (l : list A) (i : nat) : M S (list A) :=
  if decide (i <= length l) then mret (drop i l)
  else panic "runtime error: slice bounds out of range".

(** ** The generator state *)

Record Gen := { pkg : Package; methods : list FuncDecl }.

Definition append_method (m : FuncDecl) (gen : Gen) : Gen :=
  {| pkg := pkg gen; methods := methods gen ++ [m] |}.

(** ** The two tables *)

Definition validMethodTypes : gmap string bool :=
  list_to_map
    [ ("*github.com/jupiterrider/purego-sdl3/sdl.Camera", true);
      ("*github.com/jupiterrider/purego-sdl3/sdl.Cursor", true);
      ("*github.com/jupiterrider/purego-sdl3/sdl.Renderer", true);
      ("*github.com/jupiterrider/purego-sdl3/sdl.Surface", true);
      ("*github.com/jupiterrider/purego-sdl3/sdl.Texture", true);
      ("*github.com/jupiterrider/purego-sdl3/sdl.Window", true) ].

Definition renameMethod : gmap string string :=
  list_to_map
    [ ("AcquireCameraFrame", "AcquireFrame");
      ("CloseCamera", "Close");
      ("ReleaseCameraFrame", "ReleaseFrame");
      ("DestroyCursor", "Destroy");
      ("GetRendererName", "GetName");
      ("DestroyRenderer", "Destroy");
      ("RenderClear", "Clear");
      ("RenderPresent", "Present");
      ("SetRenderDrawColor", "SetDrawColor");
      ("SetRenderVSync", "SetVSync");
      ("BlitSurface", "Blit");
      ("DestroySurface", "Destroy");
      ("LockSurface", "Lock");
      ("UnlockSurface", "Unlock");
      ("DestroyTexture", "Destroy");
      ("DestroyWindow", "Destroy");
      ("GetWindowSize", "GetSize");
      ("GetWindowSurface", "GetSurface");
      ("HideWindow", "Hide");
      ("SetWindowSize", "SetSize");
      ("ShowWindow", "Show");
      ("UpdateWindowSurface", "UpdateSurface") ].

(** The tables are looked up by evaluation only where a proof asks for
    it. *)
Opaque validMethodTypes renameMethod.

(** [validMethodTypes[typ.String()]]: a missing key reads as [false];
    calling [String] on a nil [Type] panics. *)
Definition isValidMethodType (typ : option Ty) : M Gen bool :=
  match typ with
  | Some t => mret (default false (validMethodTypes !! Ty_String t))
  | None => panic "runtime error: invalid memory address or nil pointer dereference"
  end.

(** ** Building a method *)

(** The loop copying the doc comment, one [append] per comment. *)
Definition copyDoc (doc : option CommentGroup) : CommentGroup :=
  match doc with
  | Some d =>
      {| CommentGroup_List :=
           foldl (fun acc comment =>
                    acc ++ [ {| Comment_Slash := 0%Z;
                                Comment_Text := Comment_Text comment |} ])
                 [] (CommentGroup_List d) |}
  | None => {| CommentGroup_List := [] |}
  end.

(** The nested loop collecting the call's arguments. *)
Definition collectArgs (params : list Field) : list Expr :=
  foldl (fun args paramField =>
           foldl (fun args paramName => args ++ [Expr_Ident paramName])
                 args (Field_Names paramField))
        [] params.

Definition hasReturn (results : option FieldList) : bool :=
  match results with
  | Some r => bool_decide (0 < length (FieldList_List r))
  | None => false
  end.

(** The declaration [genMethod] assembles: the [ast.FuncDecl] literal
    followed by the assignment of its body.  [rename] is the renaming
    table, [rest] is [funcDecl.Type.Params.List[1:]]. *)
Definition buildMethod (rename : gmap string string) (funcDecl : FuncDecl)
    (firstParam : Field) (firstParamName : Ident) (rest : list Field)
    : FuncDecl :=
  let firstParamType := Field_Type firstParam in
  let funcName := Ident_String (FuncDecl_Name funcDecl) in
  let methodName :=
    match rename !! funcName with
    | Some newMethodName => newMethodName
    | None => funcName
    end in
  let doc := copyDoc (FuncDecl_Doc funcDecl) in
  let args :=
    collectArgs (FieldList_List (FuncType_Params (FuncDecl_Type funcDecl))) in
  let callExpr :=
    CallExpr (Expr_Ident (FuncDecl_Name funcDecl)) NoPos args NoPos NoPos in
  let stmt :=
    if hasReturn (FuncType_Results (FuncDecl_Type funcDecl))
    then ReturnStmt NoPos [callExpr]
    else ExprStmt callExpr in
  {| FuncDecl_Doc := Some doc;
     FuncDecl_Recv :=
       Some {| FieldList_Opening := NoPos;
               FieldList_List :=
                 [ {| Field_Names := [NewIdent (Ident_String firstParamName)];
                      Field_Type := firstParamType |} ];
               FieldList_Closing := NoPos |};
     FuncDecl_Name := NewIdent methodName;
     FuncDecl_Type :=
       {| FuncType_Func := NoPos;
          FuncType_TypeParams := None;
          FuncType_Params :=
            {| FieldList_Opening := NoPos;
               FieldList_List := rest;
               FieldList_Closing := NoPos |};
          FuncType_Results := FuncType_Results (FuncDecl_Type funcDecl) |};
     FuncDecl_Body :=
       Some {| BlockStmt_Lbrace := NoPos;
               BlockStmt_List := [stmt];
               BlockStmt_Rbrace := NoPos |} |}.

(** [genMethod], with the renaming table as an argument so that the
    same declaration can be run against different tables.  The three
    reads that can panic come in the order of the source: [params[0]],
    [firstParam.Names[0]], then [List[1:]]. *)
Definition genMethodWith (rename : gmap string string)
    (funcDecl : FuncDecl) : M Gen unit :=
  let params := FieldList_List (FuncType_Params (FuncDecl_Type funcDecl)) in
  firstParam ← index params 0;
  firstParamName ← index (Field_Names firstParam) 0;
  rest ← slice_from params 1;
  modify (append_method
            (buildMethod rename funcDecl firstParam firstParamName rest)).

Definition genMethod : FuncDecl -> M Gen unit := genMethodWith renameMethod.

(** ** Walking the package *)

Definition parseFuncDecl (decl : FuncDecl) : M Gen unit :=
  match FuncDecl_Recv decl with
  | Some _ => mret tt
  | None =>
      let params := FieldList_List (FuncType_Params (FuncDecl_Type decl)) in
      if decide (length params = 0) then mret tt
      else
        firstParam ← index params 0;
        if decide (length (Field_Names firstParam) ≠ 1) then mret tt
        else
          firstParamName ← index (Field_Names firstParam) 0;
          gen ← get;
          let firstParamType :=
            TypeOf (Package_TypesInfo (pkg gen)) (Field_Type firstParam) in
          valid ← isValidMethodType firstParamType;
          if negb valid then mret tt
          else try (genMethod decl)
  end.

Definition parseDecl (decl : Decl) : M Gen unit :=
  match decl with
  | Decl_GenDecl _ => mret tt
  | Decl_FuncDecl decl => try (parseFuncDecl decl)
  | Decl_BadDecl _ _ =>
      panic "support for declaration type *ast.BadDecl not yet implemented"
  end.

Definition parseFile (file : File) : M Gen unit :=
  for_range (File_Decls file) (fun decl => try (parseDecl decl)).

Definition parsePkg : M Gen unit :=
  gen ← get;
  for_range (Package_Syntax (pkg gen)) (fun file => try (parseFile file)).

(** ** The run: loading, generating, emitting

    The loader, the two formatters of [go/format] and [os.WriteFile]
    belong to libraries; they are parameters of the run.  The world a
    run acts on is a file system of some type [FS] and the text written
    to standard output. *)

Record World (FS : Type) := { fs : FS; stdout : string }.
Arguments fs {FS} w.
Arguments stdout {FS} w.

(** Line feed and the double quote, which a string literal cannot hold. *)
Definition LF : string := String (Ascii.ascii_of_nat 10) "".
Definition DQ : string := String (Ascii.ascii_of_nat 34) "".

Definition pre : string :=
  "// Code generated by " +:+ DQ +:+ "genmethods" +:+ DQ +:+ "; DO NOT EDIT."
  +:+ LF.

Section Run.
Context {FS : Type}.

(** [packages.Load] with the configuration of [loadPkg]. *)
Variable packages_Load : string -> list Package + error.
(** [format.Node] on a file: the rendered text, or an error. *)
Variable format_Node : FileSet -> File -> string + error.
(** [format.Source]. *)
Variable format_Source : string -> string + error.
(** [os.WriteFile name data 0o644]: the file system afterwards and the
    error returned, if any. *)
Variable os_WriteFile : string -> string -> FS -> FS * option error.

(** The message of the last error is kept without its formatted
    arguments. *)
Definition loadPkg (pkgPath : string) : M (World FS) Package :=
  match packages_Load pkgPath with
  | inr err => throw (WithStack err)
  | inl pkgs =>
      match List.find (fun p => bool_decide (Package_PkgPath p = pkgPath)) pkgs with
      | Some p => mret p
      | None => throw (Errorf "unable to locate pkg")
      end
  end.

Definition writeFile (name data : string) : M (World FS) unit := fun w =>
  match os_WriteFile name data (fs w) with
  | (fs', None) => Ok tt {| fs := fs'; stdout := stdout w |}
  | (fs', Some err) => Err err {| fs := fs'; stdout := stdout w |}
  end.

(** [fmt.Print(string(data))] *)
Definition print (data : string) : M (World FS) unit :=
  modify (fun w => {| fs := fs w; stdout := stdout w +:+ data |}).

(** The file handed to the printer: the package name and the methods,
    appended one by one. *)
Definition outputFile (gen : Gen) : File :=
  {| File_Name := NewIdent (Package_Name (pkg gen));
     File_FileStart := NoPos;
     File_Decls :=
       foldl (fun decls method => decls ++ [Decl_FuncDecl method])
             [] (methods gen) |}.

Definition printMethods (gen : Gen) (output : string) : M (World FS) unit :=
  let file := outputFile gen in
  let buf := pre +:+ LF in
  match format_Node (Package_Fset (pkg gen)) file with
  | inr err => throw (WithStack err)
  | inl text =>
      let buf := buf +:+ text in
      match format_Source buf with
      | inr err => throw (WithStack err)
      | inl data =>
          if decide (0 < String.length output)
          then try (writeFile output data)
          else print data
      end
  end.

(** Runs a computation on the generator state inside a run. *)
Definition withGen {A} (gen : Gen) (m : M Gen A) : M (World FS) (A * Gen) :=
  fun w =>
    match m gen with
    | Ok a gen' => Ok (a, gen') w
    | Err err _ => Err err w
    | Panic v => Panic v
    end.

Definition genMethods (pkgPath output : string) : M (World FS) unit :=
  pkg ← try (loadPkg pkgPath);
  let gen := {| pkg := pkg; methods := [] |} in
  '(_, gen) ← try (withGen gen parsePkg);
  try (printMethods gen output).
End Run.

(** ** Sample input: a slice of the [sdl] package

    Enough declarations to run the generator on the scenarios of the
    specification. *)

Module Sample.
Local Open Scope Z_scope.

Definition ident (pos : Z) (name : string) : Ident :=
  {| Ident_NamePos := pos; Ident_Name := name |}.

(** A parameter slot [names typ]. *)
Definition field (names : list Ident) (typ : Expr) : Field :=
  {| Field_Names := names; Field_Type := typ |}.

Definition fields (opening : Z) (l : list Field) (closing : Z) : FieldList :=
  {| FieldList_Opening := opening;
     FieldList_List := l;
     FieldList_Closing := closing |}.

(** [func name(params) results], without doc comment or body. *)
Definition func (pos : Z) (name : string) (params : list Field)
    (results : option FieldList) : FuncDecl :=
  {| FuncDecl_Doc := None;
     FuncDecl_Recv := None;
     FuncDecl_Name := ident (pos + 5) name;
     FuncDecl_Type :=
       {| FuncType_Func := pos;
          FuncType_TypeParams := None;
          FuncType_Params := fields (pos + 20) params (pos + 60);
          FuncType_Results := results |};
     FuncDecl_Body := None |}.

Definition withDoc (lines : list Comment) (d : FuncDecl) : FuncDecl :=
  {| FuncDecl_Doc := Some {| CommentGroup_List := lines |};
     FuncDecl_Recv := FuncDecl_Recv d;
     FuncDecl_Name := FuncDecl_Name d;
     FuncDecl_Type := FuncDecl_Type d;
     FuncDecl_Body := FuncDecl_Body d |}.

Definition withRecv (recv : FieldList) (d : FuncDecl) : FuncDecl :=
  {| FuncDecl_Doc := FuncDecl_Doc d;
     FuncDecl_Recv := Some recv;
     FuncDecl_Name := FuncDecl_Name d;
     FuncDecl_Type := FuncDecl_Type d;
     FuncDecl_Body := FuncDecl_Body d |}.

(** The type expressions [T] and [*T]. *)
Definition named (pos : Z) (name : string) : Expr :=
  Expr_Ident (ident pos name).
Definition ptr (pos : Z) (name : string) : Expr :=
  StarExpr pos (named (pos + 1) name).

(** A type checker for the sample: predeclared names stand for
    themselves, other names are types of the [sdl] package. *)
Fixpoint typeString (e : Expr) : option string :=
  match e with
  | Expr_Ident id =>
      let name := Ident_Name id in
      if bool_decide (name ∈ ["int"; "int32"; "bool"; "string"])
      then Some name
      else Some ("github.com/jupiterrider/purego-sdl3/sdl." +:+ name)
  | StarExpr _ x =>
      match typeString x with
      | Some s => Some ("*" +:+ s)
      | None => None
      end
  | _ => None
  end.

Definition info : Info :=
  {| Info_Types := fun e =>
       match typeString e with
       | Some s => Some {| TypeAndValue_Type := Some {| Ty_String := s |} |}
       | None => None
       end |}.

(** [func DestroyWindow(win *Window)] *)
Definition DestroyWindow : FuncDecl :=
  func 100 "DestroyWindow" [field [ident 121 "win"] (ptr 125 "Window")] None.

(** [func GetWindowSize(win *Window, w *int32, h *int32) bool] *)
Definition GetWindowSize : FuncDecl :=
  func 200 "GetWindowSize"
    [ field [ident 221 "win"] (ptr 225 "Window");
      field [ident 234 "w"] (ptr 236 "int32");
      field [ident 244 "h"] (ptr 246 "int32") ]
    (Some (fields 0 [field [] (named 262 "bool")] 0)).

(** [func Poll(ev *Event) bool] *)
Definition Poll : FuncDecl :=
  func 300 "Poll" [field [ident 321 "ev"] (ptr 324 "Event")]
    (Some (fields 0 [field [] (named 341 "bool")] 0)).

(** [func Foo(a, b int)] *)
Definition Foo : FuncDecl :=
  func 400 "Foo" [field [ident 421 "a"; ident 424 "b"] (named 426 "int")] None.

(** [func HideWindow(_ *Window)] written without the parameter name. *)
Definition HideWindow : FuncDecl :=
  func 500 "HideWindow" [field [] (ptr 521 "Window")] None.

(** [func Quit()] *)
Definition Quit : FuncDecl := func 600 "Quit" [] None.

(** [func (win *Window) Raise(r *Renderer)], already a method. *)
Definition Raise : FuncDecl :=
  withRecv (fields 705 [field [ident 706 "win"] (ptr 710 "Window")] 717)
    (func 700 "Raise" [field [ident 726 "r"] (ptr 728 "Renderer")] None).

(** [DestroyWindow] with a two-line doc comment. *)
Definition DestroyWindowDoc : FuncDecl :=
  withDoc [ {| Comment_Slash := 60; Comment_Text := "// DestroyWindow destroys" |};
            {| Comment_Slash := 90; Comment_Text := "// a window." |} ]
    DestroyWindow.

Definition file (name : string) (start : Z) (decls : list Decl) : File :=
  {| File_Name := ident (start + 8) name;
     File_FileStart := start;
     File_Decls := decls |}.

Definition package (files : list File) : Package :=
  {| Package_PkgPath := "github.com/jupiterrider/purego-sdl3/sdl";
     Package_Name := "sdl";
     Package_Fset := [("video.go", 1%Z); ("events.go", 1000%Z)];
     Package_Syntax := files;
     Package_TypesInfo := info |}.

Definition typeDecl (pos : Z) : Decl :=
  Decl_GenDecl {| GenDecl_TokPos := pos; GenDecl_Tok := TYPE |}.

(** Two files, visited in this order. *)
Definition sdl : Package :=
  package
    [ file "sdl" 1 [ typeDecl 20; Decl_FuncDecl GetWindowSize;
                     Decl_FuncDecl Foo; Decl_FuncDecl DestroyWindow ];
      file "sdl" 1000 [ Decl_FuncDecl Poll; Decl_FuncDecl Raise ] ].

Definition start (p : Package) : Gen := {| pkg := p; methods := [] |}.
End Sample.

(** ** The classifier as a list of rules

    [parseFuncDecl] decides inline.  [classify] states the decision as
    the ordered rules of the specification, with the third rule as the
    code has it: a first parameter slot passes only with exactly one
    name.  [classify_as_specified] follows the specification's wording
    of that rule, which rejects a slot with more than one name. *)

Inductive rule := HasReceiver | NoParameters | NameCount | NotAllowed.

Inductive verdict :=
| Reject (r : rule)
| Accept (firstParam : Field) (firstParamName : Ident) (rest : list Field)
| NilType.

Definition paramList (decl : FuncDecl) : list Field :=
  FieldList_List (FuncType_Params (FuncDecl_Type decl)).

Definition allowed (t : Ty) : bool :=
  default false (validMethodTypes !! Ty_String t).

Definition classify (info : Info) (decl : FuncDecl) : verdict :=
  match FuncDecl_Recv decl with
  | Some _ => Reject HasReceiver
  | None =>
      match paramList decl with
      | [] => Reject NoParameters
      | firstParam :: rest =>
          match Field_Names firstParam with
          | [firstParamName] =>
              match TypeOf info (Field_Type firstParam) with
              | Some t =>
                  if allowed t then Accept firstParam firstParamName rest
                  else Reject NotAllowed
              | None => NilType
              end
          | _ => Reject NameCount
          end
      end
  end.

(** The rules as the specification words them; [None] is acceptance. *)
Definition classify_as_specified (info : Info) (decl : FuncDecl)
    : option rule :=
  match FuncDecl_Recv decl with
  | Some _ => Some HasReceiver
  | None =>
      match paramList decl with
      | [] => Some NoParameters
      | firstParam :: _ =>
          if decide (1 < length (Field_Names firstParam)) then Some NameCount
          else
            match TypeOf info (Field_Type firstParam) with
            | Some t => if allowed t then None else Some NotAllowed
            | None => Some NotAllowed
            end
      end
  end.

(** What one declaration contributes to the output. *)
Definition synth (info : Info) (decl : Decl) : option FuncDecl :=
  match decl with
  | Decl_FuncDecl d =>
      match classify info d with
      | Accept p n rest => Some (buildMethod renameMethod d p n rest)
      | _ => None
      end
  | _ => None
  end.

(** All top-level declarations, file after file. *)
Definition allDecls (p : Package) : list Decl :=
  Package_Syntax p ≫= File_Decls.

(** The methods of a package in the order its declarations are visited. *)
Definition visit (p : Package) : list FuncDecl :=
  omap (synth (Package_TypesInfo p)) (allDecls p).

(** A declaration the walk cannot get past: a bad declaration, or a
    function whose first parameter's type expression has no recorded
    type. *)
Definition stuck (info : Info) (decl : Decl) : Prop :=
  match decl with
  | Decl_BadDecl _ _ => True
  | Decl_GenDecl _ => False
  | Decl_FuncDecl d => classify info d = NilType
  end.

(** ** Reading a synthesized method *)

Definition paramNames (decl : FuncDecl) : list Ident :=
  paramList decl ≫= Field_Names.

Definition hasResults (decl : FuncDecl) : Prop :=
  exists r, FuncType_Results (FuncDecl_Type decl) = Some r
            /\ FieldList_List r <> [].

Definition bodyStmts (m : FuncDecl) : list Stmt :=
  match FuncDecl_Body m with
  | Some b => BlockStmt_List b
  | None => []
  end.

(** The call of a one-statement body: callee and arguments. *)
Definition forwardingCall (m : FuncDecl) : option (Expr * list Expr) :=
  match bodyStmts m with
  | [ReturnStmt _ [CallExpr f _ args _ _]] => Some (f, args)
  | [ExprStmt (CallExpr f _ args _ _)] => Some (f, args)
  | _ => None
  end.

(** The resolved type of the receiver of a method. *)
Definition receiverType (info : Info) (m : FuncDecl) : option Ty :=
  match FuncDecl_Recv m with
  | Some {| FieldList_List := [recv] |} => TypeOf info (Field_Type recv)
  | _ => None
  end.

Definition nilPanic : string :=
  "runtime error: invalid memory address or nil pointer dereference".

(** The state after [ms] has been appended to the methods. *)
Definition add (ms : list FuncDecl) (gen : Gen) : Gen :=
  {| pkg := pkg gen; methods := methods gen ++ ms |}.

(** A loop body that, depending on the package only, either appends
    [out x] or panics; it never returns an error. *)
Definition steps {A} (body : A -> M Gen unit)
    (out : Package -> A -> list FuncDecl) (bad : Package -> A -> Prop) : Prop :=
  forall x gen,
    (~ bad (pkg gen) x /\ body x gen = Ok tt (add (out (pkg gen) x) gen))
    \/ (bad (pkg gen) x /\ exists v, body x gen = Panic v).

(** ** Text of an emitted file

    The shape in which [go/format] lays out a file that has no imports:
    the package clause, then each declaration after an empty line. *)

Definition fileText (name : string) (decls : list string) : string :=
  "package " +:+ name
  +:+ String.concat "" ((fun d => LF +:+ LF +:+ d) <$> decls) +:+ LF.

(** ** A disk for [os.WriteFile]

    [os.WriteFile] of the Go standard library opens the file with
    [O_WRONLY|O_CREATE|O_TRUNC], writes the data and closes the file.
    The disk below has a number of free bytes; truncation gives the old
    contents back, and a write stores as many bytes as fit and reports
    an error when that is fewer than asked for. *)

Record Disk := { Disk_files : gmap string string; Disk_free : nat }.

Definition os_WriteFile_disk (name data : string) (d : Disk)
    : Disk * option error :=
  let old := default "" (Disk_files d !! name) in
  let free := Disk_free d + String.length old in
  let n := min (String.length data) free in
  ({| Disk_files := <[name := String.substring 0 n data]> (Disk_files d);
      Disk_free := free - n |},
   if decide (n < String.length data)
   then Some (Errorf "write: no space left on device")
   else None).

(** ** Stand-ins for the libraries, to run the samples *)

Module SampleRun.
Definition render (d : Decl) : string :=
  match d with
  | Decl_FuncDecl f => "func " +:+ Ident_Name (FuncDecl_Name f)
  | _ => ""
  end.

Definition Node (fset : FileSet) (file : File) : string + error :=
  inl (fileText (Ident_Name (File_Name file)) (render <$> File_Decls file)).

Definition Source (src : string) : string + error := inl src.

Definition Load (p : Package) (pkgPath : string) : list Package + error :=
  inl [p].

Definition sdlPath : string := "github.com/jupiterrider/purego-sdl3/sdl".

(** A disk holding an older [methods.go], with ten bytes to spare. *)
Definition disk : Disk :=
  {| Disk_files := {[ "methods.go" := "package sdl" ]}; Disk_free := 10 |}.

Definition world : World Disk := {| fs := disk; stdout := "" |}.

(** A package whose second file has a declaration the parser could
    not make sense of. *)
Definition broken : Package :=
  Sample.package
    [ Sample.file "sdl" 1%Z [ Decl_FuncDecl Sample.DestroyWindow ];
      Sample.file "sdl" 1000%Z [ Decl_BadDecl 1010%Z 1020%Z;
                               Decl_FuncDecl Sample.GetWindowSize ] ].

End SampleRun.

(** ** Further observers and samples *)

Definition isFuncDecl (d : Decl) : bool :=
  match d with
  | Decl_FuncDecl _ => true
  | _ => false
  end.

(** The ellipsis position of the call of a one-statement body. *)
Definition callEllipsis (m : FuncDecl) : option Pos :=
  match bodyStmts m with
  | [ReturnStmt _ [CallExpr _ _ _ e _]] => Some e
  | [ExprStmt (CallExpr _ _ _ e _)] => Some e
  | _ => None
  end.

Module SampleEdge.
(** [func LogWindow(win *Window, args ...string)] *)
Definition LogWindow : FuncDecl :=
  Sample.func 800 "LogWindow"
    [ Sample.field [Sample.ident 821 "win"] (Sample.ptr 825 "Window");
      Sample.field [Sample.ident 834 "args"]
        (Ellipsis 839%Z (Some (Sample.named 842 "string"))) ]
    None.

Definition variadic : Package :=
  Sample.package [ Sample.file "sdl" 1%Z [ Decl_FuncDecl LogWindow ] ].

(** A package of another import path. *)
Definition other : Package :=
  {| Package_PkgPath := "github.com/jupiterrider/purego-sdl3/img";
     Package_Name := "img";
     Package_Fset := [];
     Package_Syntax := [];
     Package_TypesInfo := Sample.info |}.

(** A loader that finds two packages, the wanted one second. *)
Definition LoadTwo (pkgPath : string) : list Package + error :=
  inl [other; Sample.sdl].

Definition LoadFails (pkgPath : string) : list Package + error :=
  inr (Errorf "no Go files").

Definition NodeFails (fset : FileSet) (file : File) : string + error :=
  inr (Errorf "format.Node internal error").

Definition SourceFails (src : string) : string + error :=
  inr (Errorf "expected declaration").
End SampleEdge.

(** ** Declarations and the methods made from them *)

(** The function declarations of a list of declarations, in order. *)
Definition funcDecls (l : list Decl) : list FuncDecl :=
  omap (fun decl => match decl with
                    | Decl_FuncDecl d => Some d
                    | _ => None
                    end) l.

(** The function declarations of a package that the rules accept, in
    the order in which files and declarations are visited. *)
Definition accepted (p : Package) : list FuncDecl :=
  omap (fun decl =>
          match decl with
          | Decl_FuncDecl d =>
              match classify (Package_TypesInfo p) d with
              | Accept _ _ _ => Some d
              | _ => None
              end
          | _ => None
          end) (allDecls p).

(** [m] takes its receiver, its parameters and its results from [d]:
    [d] has no receiver, its first slot has one name, the receiver of
    [m] is that name with the slot's type expression, the parameters of
    [m] are the other slots, and the result lists are the same. *)
Definition splits (d m : FuncDecl) : Prop :=
  exists first n,
    FuncDecl_Recv d = None
    /\ Field_Names first = [n]
    /\ paramList d = first :: paramList m
    /\ FuncDecl_Recv m
       = Some {| FieldList_Opening := NoPos;
                 FieldList_List :=
                   [ {| Field_Names := [NewIdent (Ident_Name n)];
                        Field_Type := Field_Type first |} ];
                 FieldList_Closing := NoPos |}
    /\ FuncType_Results (FuncDecl_Type m)
       = FuncType_Results (FuncDecl_Type d).

(** [m] is the wrapper of [d]: it splits the signature of [d] and its
    body calls [d]'s own name identifier with all of [d]'s parameter
    names. *)
Definition wraps (d m : FuncDecl) : Prop :=
  splits d m
  /\ forwardingCall m
     = Some (Expr_Ident (FuncDecl_Name d), Expr_Ident <$> paramNames d).



(** * Properties *)

(** ** The monad and the loops *)

Ltac run :=
  unfold mbind, M_bind, mret, M_ret, get, modify, panic, throw, try,
    index, slice_from in *; simpl in *.

Lemma foldl_snoc {A B} (f : A -> B) (l : list A) (acc : list B) :
  foldl (fun acc x => acc ++ [f x]) acc l = acc ++ (f <$> l).
Proof.
  revert acc. induction l as [|x l IH]; intros acc; simpl.
  - by rewrite app_nil_r.
  - rewrite IH. by rewrite <- app_assoc.
Qed.

Lemma copyDoc_Some (d : CommentGroup) :
  copyDoc (Some d) =
  {| CommentGroup_List :=
       (fun c => {| Comment_Slash := NoPos; Comment_Text := Comment_Text c |})
         <$> CommentGroup_List d |}.
Proof. unfold copyDoc. by rewrite foldl_snoc. Qed.

Lemma collectArgs_names (params : list Field) :
  collectArgs params = Expr_Ident <$> (params ≫= Field_Names).
Proof.
  unfold collectArgs.
  enough (H : forall acc,
    foldl (fun args paramField =>
             foldl (fun args paramName => args ++ [Expr_Ident paramName])
                   args (Field_Names paramField)) acc params
    = acc ++ (Expr_Ident <$> (params ≫= Field_Names))) by apply (H []).
  induction params as [|p params IH]; intros acc; simpl.
  - by rewrite app_nil_r.
  - rewrite IH, foldl_snoc, fmap_app. by rewrite <- app_assoc.
Qed.

(** ** [genMethod] *)

Lemma genMethodWith_run rename d gen p ps n ns :
  paramList d = p :: ps -> Field_Names p = n :: ns ->
  genMethodWith rename d gen
  = Ok tt (append_method (buildMethod rename d p n ps) gen).
Proof.
  unfold genMethodWith, paramList. intros -> Hn. run. rewrite Hn. simpl.
  by rewrite drop_0.
Qed.

Lemma genMethodWith_Ok rename d gen g' :
  genMethodWith rename d gen = Ok tt g' ->
  exists p ps n ns, paramList d = p :: ps /\ Field_Names p = n :: ns
    /\ g' = append_method (buildMethod rename d p n ps) gen.
Proof.
  intros H.
  destruct (paramList d) as [|p ps] eqn:Hp.
  { unfold genMethodWith, paramList in *. rewrite Hp in H. by run. }
  destruct (Field_Names p) as [|n ns] eqn:Hn.
  { unfold genMethodWith, paramList in *. rewrite Hp in H. run.
    by rewrite Hn in H. }
  rewrite (genMethodWith_run _ _ _ _ _ _ _ Hp Hn) in H.
  exists p, ps, n, ns. by inversion H.
Qed.

(** ** [parseFuncDecl] against the rules *)

Lemma parseFuncDecl_classify d gen :
  parseFuncDecl d gen =
  match classify (Package_TypesInfo (pkg gen)) d with
  | Reject _ => Ok tt gen
  | Accept p n rest =>
      Ok tt (append_method (buildMethod renameMethod d p n rest) gen)
  | NilType => Panic nilPanic
  end.
Proof.
  unfold parseFuncDecl, classify, paramList.
  destruct (FuncDecl_Recv d); [done|].
  destruct (FieldList_List _) as [|p ps] eqn:Hp; [done|].
  rewrite decide_False by done. run.
  destruct (Field_Names p) as [|n [|n' ns]] eqn:Hn; simpl; try done.
  destruct (TypeOf _ _) as [t|]; simpl; [|done].
  unfold allowed. destruct (default false _); simpl; [|done].
  unfold genMethod.
  by rewrite (genMethodWith_run _ _ _ p ps n [] Hp Hn).
Qed.

(** ** The walk over declarations, files and the package *)

Lemma add_nil gen : add [] gen = gen.
Proof. destruct gen. unfold add. simpl. by rewrite app_nil_r. Qed.

Lemma add_add ms1 ms2 gen : add ms2 (add ms1 gen) = add (ms1 ++ ms2) gen.
Proof. unfold add. simpl. by rewrite app_assoc. Qed.

Lemma append_method_add m gen : append_method m gen = add [m] gen.
Proof. done. Qed.

Lemma steps_try {A} (body : A -> M Gen unit) out bad :
  steps body out bad -> steps (fun x => try (body x)) out bad.
Proof.
  intros H x gen. unfold try.
  destruct (H x gen) as [[Hb ->]|[Hb [v ->]]]; [by left | right; eauto].
Qed.

Lemma for_range_steps {A} (body : A -> M Gen unit) out bad :
  steps body out bad ->
  steps (fun l => for_range l body)
        (fun p l => l ≫= out p) (fun p l => Exists (bad p) l).
Proof.
  intros H l. induction l as [|x l IH]; intros gen; cbn beta.
  - left. split; [rewrite Exists_nil; tauto|]. simpl. by rewrite add_nil.
  - specialize (IH (add (out (pkg gen) x) gen)). cbn beta in IH. simpl. run.
    destruct (H x gen) as [[Hb ->]|[Hb [v ->]]].
    + destruct IH as [[Hl ->]|[Hl [v ->]]]; simpl in *.
      * left. split; [|by rewrite add_add].
        rewrite Exists_cons. tauto.
      * right. split; [by apply Exists_cons_tl | eauto].
    + right. split; [by apply Exists_cons_hd | eauto].
Qed.

Lemma omap_bind_list {A B} (f : A -> option B) (l : list A) :
  l ≫= (fun x => option_list (f x)) = omap f l.
Proof.
  induction l as [|x l IH]; [done|].
  rewrite bind_cons, IH. simpl. by destruct (f x).
Qed.

Lemma parseDecl_steps :
  steps parseDecl
        (fun p d => option_list (synth (Package_TypesInfo p) d))
        (fun p d => stuck (Package_TypesInfo p) d).
Proof.
  intros [from to|g|d] gen; simpl.
  - right. eauto.
  - left. split; [tauto|]. by rewrite add_nil.
  - unfold try. rewrite parseFuncDecl_classify.
    destruct (classify _ d) as [r|p n rest|]; simpl.
    + left. split; [done|]. by rewrite add_nil.
    + left. split; [done|]. done.
    + right. eauto.
Qed.

Lemma parseFile_steps :
  steps parseFile
        (fun p file => omap (synth (Package_TypesInfo p)) (File_Decls file))
        (fun p file => Exists (stuck (Package_TypesInfo p)) (File_Decls file)).
Proof.
  intros file gen. unfold parseFile.
  pose proof (for_range_steps _ _ _ (steps_try _ _ _ parseDecl_steps)
                (File_Decls file) gen) as H.
  simpl in H. by rewrite omap_bind_list in H.
Qed.

Lemma omap_bind_files {A B C} (g : A -> list B) (f : B -> option C)
    (l : list A) :
  l ≫= (fun x => omap f (g x)) = omap f (l ≫= g).
Proof.
  induction l as [|x l IH]; [done|].
  by rewrite !bind_cons, omap_app, IH.
Qed.

Lemma Exists_bind_files {A B} (g : A -> list B) (P : B -> Prop) (l : list A) :
  Exists (fun x => Exists P (g x)) l <-> Exists P (l ≫= g).
Proof.
  induction l as [|x l IH].
  - by rewrite !Exists_nil.
  - by rewrite bind_cons, Exists_cons, Exists_app, IH.
Qed.

(** The whole walk: either no declaration is stuck and the methods of
    [visit] are appended in order, or one is and the walk panics. *)
Lemma parsePkg_outcome gen :
  let info := Package_TypesInfo (pkg gen) in
  (~ Exists (stuck info) (allDecls (pkg gen))
   /\ parsePkg gen = Ok tt (add (visit (pkg gen)) gen))
  \/ (Exists (stuck info) (allDecls (pkg gen))
      /\ exists v, parsePkg gen = Panic v).
Proof.
  unfold parsePkg, visit, allDecls. run.
  pose proof (for_range_steps _ _ _ (steps_try _ _ _ parseFile_steps)
                (Package_Syntax (pkg gen)) gen) as H.
  simpl in H. rewrite omap_bind_files, Exists_bind_files in H. exact H.
Qed.

Lemma parsePkg_Ok gen g' :
  parsePkg gen = Ok tt g' -> g' = add (visit (pkg gen)) gen.
Proof.
  intros H. destruct (parsePkg_outcome gen) as [[_ H']|[_ [v H']]];
    rewrite H' in H; by inversion H.
Qed.

(** Where a synthesized method comes from. *)
Lemma visit_origin p m :
  m ∈ visit p ->
  exists d fp n rest,
    Decl_FuncDecl d ∈ allDecls p
    /\ classify (Package_TypesInfo p) d = Accept fp n rest
    /\ m = buildMethod renameMethod d fp n rest.
Proof.
  unfold visit. rewrite list_elem_of_omap. intros ([from to|g|d] & Hin & Hs);
    simpl in Hs; try done.
  destruct (classify _ d) as [|fp n rest|] eqn:Hc; try done.
  exists d, fp, n, rest. by inversion Hs.
Qed.

Lemma classify_Accept info d fp n rest :
  classify info d = Accept fp n rest ->
  FuncDecl_Recv d = None /\ paramList d = fp :: rest /\ Field_Names fp = [n]
  /\ exists t, TypeOf info (Field_Type fp) = Some t
               /\ validMethodTypes !! Ty_String t = Some true.
Proof.
  unfold classify, allowed. intros H.
  destruct (FuncDecl_Recv d); [done|].
  destruct (paramList d) as [|p ps]; [done|].
  destruct (Field_Names p) as [|x [|y l]] eqn:Hn; try done.
  destruct (TypeOf _ _) as [t|] eqn:Ht; [|done].
  destruct (validMethodTypes !! Ty_String t) as [[]|] eqn:Hv; simpl in H;
    [|discriminate H|discriminate H].
  injection H as -> -> ->.
  split; [reflexivity|]. split; [reflexivity|]. split; [exact Hn|].
  exists t. exact (conj Ht Hv).
Qed.

Lemma hasReturn_true d :
  hasReturn (FuncType_Results (FuncDecl_Type d)) = true <-> hasResults d.
Proof.
  unfold hasReturn, hasResults.
  destruct (FuncType_Results _) as [r|]; split.
  - intros H%bool_decide_eq_true. exists r. split; [done|].
    destruct (FieldList_List r); simpl in *; [lia | done].
  - intros (r' & [= <-] & Hne). apply bool_decide_eq_true.
    destruct (FieldList_List r); simpl; [done | lia].
  - done.
  - by intros (r & ? & _).
Qed.

(** The methods of a run that began with none are those of [visit]. *)
Lemma run_methods p g' :
  parsePkg {| pkg := p; methods := [] |} = Ok tt g' -> methods g' = visit p.
Proof. intros H%parsePkg_Ok. by subst. Qed.

(** ** Methods and the declarations they are made from *)

Lemma buildMethod_wraps info d fp n rest :
  classify info d = Accept fp n rest ->
  wraps d (buildMethod renameMethod d fp n rest).
Proof.
  intros Hc. destruct (classify_Accept _ _ _ _ _ Hc) as (Hr & Hp & Hn & _).
  split.
  - exists fp, n. split; [exact Hr|]. split; [exact Hn|].
    split; [exact Hp|]. split; reflexivity.
  - unfold forwardingCall, bodyStmts, buildMethod. simpl.
    rewrite collectArgs_names. by destruct (hasReturn _).
Qed.

Lemma bodyStmts_buildMethod rename d fp n rest :
  bodyStmts (buildMethod rename d fp n rest)
  = [ if hasReturn (FuncType_Results (FuncDecl_Type d))
      then ReturnStmt NoPos
             [CallExpr (Expr_Ident (FuncDecl_Name d)) NoPos
                (Expr_Ident <$> paramNames d) NoPos NoPos]
      else ExprStmt
             (CallExpr (Expr_Ident (FuncDecl_Name d)) NoPos
                (Expr_Ident <$> paramNames d) NoPos NoPos) ].
Proof.
  unfold bodyStmts, buildMethod. simpl. by rewrite collectArgs_names.
Qed.

Lemma accepted_visit_in info (l : list Decl) :
  Forall2 (fun d m =>
             Decl_FuncDecl d ∈ l
             /\ exists fp n rest,
                  classify info d = Accept fp n rest
                  /\ m = buildMethod renameMethod d fp n rest)
          (omap (fun decl =>
                   match decl with
                   | Decl_FuncDecl d =>
                       match classify info d with
                       | Accept _ _ _ => Some d
                       | _ => None
                       end
                   | _ => None
                   end) l)
          (omap (synth info) l).
Proof.
  induction l as [|decl l IH]; [constructor|].
  assert (Forall2 (fun d m =>
             Decl_FuncDecl d ∈ decl :: l
             /\ exists fp n rest,
                  classify info d = Accept fp n rest
                  /\ m = buildMethod renameMethod d fp n rest)
          (omap (fun decl =>
                   match decl with
                   | Decl_FuncDecl d =>
                       match classify info d with
                       | Accept _ _ _ => Some d
                       | _ => None
                       end
                   | _ => None
                   end) l)
          (omap (synth info) l)) as IH'.
  { eapply Forall2_impl; [exact IH|]. intros d m [Hin H].
    split; [by apply list_elem_of_further | exact H]. }
  destruct decl as [from to|g|f]; simpl; try exact IH'.
  destruct (classify info f) as [r|fp n rest|] eqn:Hc; simpl; try exact IH'.
  constructor; [|exact IH'].
  split; [apply list_elem_of_here|]. by exists fp, n, rest.
Qed.

(** The methods of [visit] are, one for one and in order, the wrappers
    of the accepted declarations. *)
Lemma accepted_wraps p :
  Forall2 (fun d m => Decl_FuncDecl d ∈ allDecls p /\ wraps d m)
          (accepted p) (visit p).
Proof.
  unfold accepted, visit.
  eapply Forall2_impl; [apply accepted_visit_in|].
  intros d m [Hin (fp & n & rest & Hc & ->)].
  split; [exact Hin|]. by eapply buildMethod_wraps.
Qed.

Lemma accepted_sublist p : accepted p `sublist_of` funcDecls (allDecls p).
Proof.
  unfold accepted, funcDecls.
  induction (allDecls p) as [|decl l IH]; [constructor|].
  destruct decl as [from to|g|f]; simpl; try exact IH.
  destruct (classify _ f); simpl;
    [by apply sublist_cons | by apply sublist_skip | by apply sublist_cons].
Qed.

(** ** The claims *)

(** C1.  After a walk that began with no methods, every method in the
    output has a receiver whose type expression resolves to a type whose
    string is a key of [validMethodTypes] holding [true]. *)
Theorem receiver_type_allowed p g' :
  parsePkg {| pkg := p; methods := [] |} = Ok tt g' ->
  Forall (fun m => exists t,
            receiverType (Package_TypesInfo p) m = Some t
            /\ validMethodTypes !! Ty_String t = Some true)
         (methods g').
Proof.
  intros ->%run_methods. apply Forall_forall. intros m Hm.
  destruct (visit_origin _ _ Hm) as (d & fp & n & rest & _ & Hc & ->).
  destruct (classify_Accept _ _ _ _ _ Hc) as (_ & _ & _ & t & Ht & Hv).
  exists t. by split.
Qed.

Lemma receiver_type_allowed_witness :
  Forall (fun m => exists t,
            receiverType Sample.info m = Some t
            /\ validMethodTypes !! Ty_String t = Some true)
         (visit Sample.sdl).
Proof.
  apply (receiver_type_allowed Sample.sdl
           (add (visit Sample.sdl) (Sample.start Sample.sdl))).
  vm_compute. reflexivity.
Defined.

(** C2, as the specification words it, fails: a function whose first
    parameter is unnamed and of an allowed type passes every rule of the
    specification, and the code skips it. *)
Lemma unnamed_first_parameter_skipped :
  classify_as_specified Sample.info Sample.HideWindow = None
  /\ parseFuncDecl Sample.HideWindow (Sample.start Sample.sdl)
     = Ok tt (Sample.start Sample.sdl).
Proof. split; vm_compute; reflexivity. Qed.

(** C2, amended.  [parseFuncDecl] applies the rules of [classify] in
    order and stops at the first that rejects: a receiver; no
    parameters; a first slot whose number of names is not one; a first
    parameter type that is not a key of the allow-list holding [true].
    A rejected declaration leaves the state as it was, an accepted one
    appends its method, and a first parameter without recorded type
    panics. *)
Theorem classifier_rules d gen :
  let info := Package_TypesInfo (pkg gen) in
  parseFuncDecl d gen =
    match classify info d with
    | Reject _ => Ok tt gen
    | Accept p n rest =>
        Ok tt (append_method (buildMethod renameMethod d p n rest) gen)
    | NilType => Panic nilPanic
    end
  /\ (is_Some (FuncDecl_Recv d) -> classify info d = Reject HasReceiver)
  /\ (FuncDecl_Recv d = None -> paramList d = [] ->
      classify info d = Reject NoParameters)
  /\ (forall p ps, FuncDecl_Recv d = None -> paramList d = p :: ps ->
      length (Field_Names p) <> 1 -> classify info d = Reject NameCount)
  /\ (forall p ps n t, FuncDecl_Recv d = None -> paramList d = p :: ps ->
      Field_Names p = [n] -> TypeOf info (Field_Type p) = Some t ->
      validMethodTypes !! Ty_String t <> Some true ->
      classify info d = Reject NotAllowed)
  /\ (forall p ps n t, FuncDecl_Recv d = None -> paramList d = p :: ps ->
      Field_Names p = [n] -> TypeOf info (Field_Type p) = Some t ->
      validMethodTypes !! Ty_String t = Some true ->
      classify info d = Accept p n ps).
Proof.
  intros info. split; [apply parseFuncDecl_classify|].
  unfold classify, allowed. split_and!.
  - by intros [r ->].
  - by intros -> ->.
  - intros p ps -> -> Hlen. by destruct (Field_Names p) as [|x [|y l]].
  - intros p ps n t -> -> -> -> Hv.
    by destruct (validMethodTypes !! Ty_String t) as [[]|].
  - intros p ps n t -> -> -> -> ->. done.
Qed.

Lemma classifier_rules_witness :
  classify Sample.info Sample.HideWindow = Reject NameCount
  /\ classify Sample.info Sample.Foo = Reject NameCount
  /\ classify Sample.info Sample.Poll = Reject NotAllowed.
Proof.
  pose proof (classifier_rules Sample.HideWindow (Sample.start Sample.sdl))
    as (_ & _ & _ & H1 & _).
  pose proof (classifier_rules Sample.Foo (Sample.start Sample.sdl))
    as (_ & _ & _ & H2 & _).
  pose proof (classifier_rules Sample.Poll (Sample.start Sample.sdl))
    as (_ & _ & _ & _ & H3 & _).
  split_and!.
  - eapply H1; [reflexivity | reflexivity | simpl; lia].
  - eapply H2; [reflexivity | reflexivity | simpl; lia].
  - eapply H3; [reflexivity | reflexivity | reflexivity | reflexivity |].
    vm_compute. discriminate.
Defined.

(** C3.  The methods of the output are, one for one and in the order of
    the walk, made from the accepted declarations of the package.  Each
    method takes its receiver, parameters and results from its own
    declaration, and its body calls that declaration's name identifier
    (the original name, renamed or not) with the names of all of its
    parameters, the first included, from left to right; there are as
    many arguments as parameter names. *)
Theorem forwarding_call_complete p g' :
  parsePkg {| pkg := p; methods := [] |} = Ok tt g' ->
  Forall2 (fun d m => exists args,
             Decl_FuncDecl d ∈ allDecls p
             /\ splits d m
             /\ forwardingCall m = Some (Expr_Ident (FuncDecl_Name d), args)
             /\ args = Expr_Ident <$> paramNames d
             /\ length args = length (paramNames d))
          (accepted p) (methods g').
Proof.
  intros ->%run_methods.
  eapply Forall2_impl; [apply accepted_wraps|].
  intros d m [Hin [Hs Hcall]].
  exists (Expr_Ident <$> paramNames d).
  split; [exact Hin|]. split; [exact Hs|]. split; [exact Hcall|].
  split; [reflexivity|]. by rewrite length_fmap.
Qed.

Lemma forwarding_call_complete_witness :
  Forall2 (fun d m => exists args,
             Decl_FuncDecl d ∈ allDecls Sample.sdl
             /\ splits d m
             /\ forwardingCall m = Some (Expr_Ident (FuncDecl_Name d), args)
             /\ args = Expr_Ident <$> paramNames d
             /\ length args = length (paramNames d))
          [Sample.GetWindowSize; Sample.DestroyWindow]
          (visit Sample.sdl).
Proof.
  apply (forwarding_call_complete Sample.sdl
           (add (visit Sample.sdl) (Sample.start Sample.sdl))).
  vm_compute. reflexivity.
Defined.

(** C4.  The methods of the output are, one for one and in the order of
    the walk, made from the accepted declarations of the package.  The
    body of each is one statement built around the call of its own
    declaration: a return of that call when the declaration's result
    list, which is also the method's, is neither nil nor empty, and the
    call as an expression statement otherwise. *)
Theorem body_single_statement p g' :
  parsePkg {| pkg := p; methods := [] |} = Ok tt g' ->
  Forall2 (fun d m => exists call,
             Decl_FuncDecl d ∈ allDecls p
             /\ splits d m
             /\ call = CallExpr (Expr_Ident (FuncDecl_Name d)) NoPos
                         (Expr_Ident <$> paramNames d) NoPos NoPos
             /\ is_Some (FuncDecl_Body m)
             /\ ((hasResults d /\ hasResults m
                  /\ bodyStmts m = [ReturnStmt NoPos [call]])
                 \/ (~ hasResults d /\ ~ hasResults m
                     /\ bodyStmts m = [ExprStmt call])))
          (accepted p) (methods g').
Proof.
  intros ->%run_methods. unfold accepted, visit.
  eapply Forall2_impl; [apply accepted_visit_in|].
  intros d m [Hin (fp & n & rest & Hc & ->)].
  destruct (buildMethod_wraps _ _ _ _ _ Hc) as [Hs _].
  eexists. split; [exact Hin|]. split; [exact Hs|].
  split; [reflexivity|]. split; [by eexists|].
  assert (hasResults (buildMethod renameMethod d fp n rest) <-> hasResults d)
    as Hsame by done.
  rewrite bodyStmts_buildMethod.
  destruct (hasReturn _) eqn:Hr.
  - left. apply hasReturn_true in Hr.
    split; [exact Hr|]. split; [by apply Hsame | reflexivity].
  - right. assert (~ hasResults d) as Hno.
    { intros H%hasReturn_true. congruence. }
    split; [exact Hno|]. split; [|reflexivity].
    intros H. apply Hno. by apply Hsame.
Qed.

Lemma body_single_statement_witness :
  Forall2 (fun d m => exists call,
             Decl_FuncDecl d ∈ allDecls Sample.sdl
             /\ splits d m
             /\ call = CallExpr (Expr_Ident (FuncDecl_Name d)) NoPos
                         (Expr_Ident <$> paramNames d) NoPos NoPos
             /\ is_Some (FuncDecl_Body m)
             /\ ((hasResults d /\ hasResults m
                  /\ bodyStmts m = [ReturnStmt NoPos [call]])
                 \/ (~ hasResults d /\ ~ hasResults m
                     /\ bodyStmts m = [ExprStmt call])))
          [Sample.GetWindowSize; Sample.DestroyWindow]
          (visit Sample.sdl).
Proof.
  apply (body_single_statement Sample.sdl
           (add (visit Sample.sdl) (Sample.start Sample.sdl))).
  vm_compute. reflexivity.
Defined.

(** C5.  For an accepted declaration whose name is a key of a renaming
    table, the method built with the table has the mapped name; the
    method built with that key removed has the original name; the two
    agree on doc comment, receiver, signature and body, and the body
    calls the original name identifier.  The table acts through the
    entry of this one key only: tables that agree on it give the same
    result. *)
Theorem renaming_changes_name_only info tbl d fp n rest new gen :
  let funcName := Ident_Name (FuncDecl_Name d) in
  classify info d = Accept fp n rest ->
  tbl !! funcName = Some new ->
  exists m m0,
    genMethodWith tbl d gen = Ok tt (append_method m gen)
    /\ genMethodWith (delete funcName tbl) d gen = Ok tt (append_method m0 gen)
    /\ FuncDecl_Name m = NewIdent new
    /\ FuncDecl_Name m0 = NewIdent funcName
    /\ FuncDecl_Doc m = FuncDecl_Doc m0
    /\ FuncDecl_Recv m = FuncDecl_Recv m0
    /\ FuncDecl_Type m = FuncDecl_Type m0
    /\ FuncDecl_Body m = FuncDecl_Body m0
    /\ (exists args,
          forwardingCall m = Some (Expr_Ident (FuncDecl_Name d), args))
    /\ (forall tbl', tbl' !! funcName = tbl !! funcName ->
          genMethodWith tbl' d gen = genMethodWith tbl d gen).
Proof.
  intros funcName Hc Hnew.
  destruct (classify_Accept _ _ _ _ _ Hc) as (_ & Hp & Hn & _).
  exists (buildMethod tbl d fp n rest),
         (buildMethod (delete funcName tbl) d fp n rest).
  split_and!; try done.
  - by apply genMethodWith_run with (ns := []).
  - by apply genMethodWith_run with (ns := []).
  - unfold buildMethod, Ident_String. simpl. fold funcName. by rewrite Hnew.
  - unfold buildMethod, Ident_String. simpl. fold funcName.
    by rewrite lookup_delete_eq.
  - exists (collectArgs (paramList d)).
    unfold forwardingCall, bodyStmts, buildMethod, paramList. simpl.
    by destruct (hasReturn _).
  - intros tbl' Heq.
    rewrite !(genMethodWith_run _ _ _ _ _ _ [] Hp Hn).
    unfold buildMethod, Ident_String. fold funcName. by rewrite Heq.
Qed.

Lemma renaming_changes_name_only_witness :
  exists m m0,
    genMethodWith renameMethod Sample.DestroyWindow (Sample.start Sample.sdl)
    = Ok tt (append_method m (Sample.start Sample.sdl))
    /\ genMethodWith (delete "DestroyWindow" renameMethod)
         Sample.DestroyWindow (Sample.start Sample.sdl)
       = Ok tt (append_method m0 (Sample.start Sample.sdl))
    /\ FuncDecl_Name m = NewIdent "Destroy"
    /\ FuncDecl_Name m0 = NewIdent "DestroyWindow".
Proof.
  destruct (renaming_changes_name_only Sample.info renameMethod
              Sample.DestroyWindow
              (Sample.field [Sample.ident 121 "win"] (Sample.ptr 125 "Window"))
              (Sample.ident 121 "win") [] "Destroy" (Sample.start Sample.sdl))
    as (m & m0 & H1 & H2 & H3 & H4 & _).
  - vm_compute. reflexivity.
  - vm_compute. reflexivity.
  - exists m, m0. split_and!; assumption.
Defined.

(** C9.  An accepted declaration with a doc comment gets a method whose
    doc comment has the same texts, comment by comment and in order,
    each at position zero. *)
Theorem doc_comment_copied d fp n rest doc gen :
  classify (Package_TypesInfo (pkg gen)) d = Accept fp n rest ->
  FuncDecl_Doc d = Some doc ->
  exists m doc',
    parseFuncDecl d gen = Ok tt (append_method m gen)
    /\ FuncDecl_Doc m = Some doc'
    /\ Comment_Text <$> CommentGroup_List doc'
       = Comment_Text <$> CommentGroup_List doc
    /\ Forall (fun c => Comment_Slash c = NoPos) (CommentGroup_List doc').
Proof.
  intros Hc Hdoc. rewrite parseFuncDecl_classify, Hc.
  eexists _, _. split; [reflexivity|].
  unfold buildMethod. simpl. rewrite Hdoc, copyDoc_Some.
  split; [reflexivity|]. simpl. split.
  - rewrite <- list_fmap_compose. by apply list_fmap_ext.
  - apply Forall_fmap. by apply Forall_true.
Qed.

Lemma doc_comment_copied_witness :
  exists m doc',
    parseFuncDecl Sample.DestroyWindowDoc (Sample.start Sample.sdl)
    = Ok tt (append_method m (Sample.start Sample.sdl))
    /\ FuncDecl_Doc m = Some doc'
    /\ Comment_Text <$> CommentGroup_List doc'
       = ["// DestroyWindow destroys"; "// a window."]
    /\ Forall (fun c => Comment_Slash c = NoPos) (CommentGroup_List doc').
Proof.
  refine (doc_comment_copied Sample.DestroyWindowDoc
            (Sample.field [Sample.ident 121 "win"] (Sample.ptr 125 "Window"))
            (Sample.ident 121 "win") []
            {| CommentGroup_List :=
                 [ {| Comment_Slash := 60%Z;
                      Comment_Text := "// DestroyWindow destroys" |};
                   {| Comment_Slash := 90%Z;
                      Comment_Text := "// a window." |} ] |}
            (Sample.start Sample.sdl) _ _).
  - vm_compute. reflexivity.
  - reflexivity.
Defined.

(** C10.  A declaration whose first parameter slot has no name is
    skipped.  Whenever [parseFuncDecl] changes the state, the first
    slot has exactly one name and the change is that of [genMethod];
    with one name in the first slot [genMethod] returns normally; and
    the only panic of [parseFuncDecl] is that of a type lookup that
    found nothing, never that of an index. *)
Theorem unnamed_rejected_named_read d gen :
  (forall p ps, paramList d = p :: ps -> Field_Names p = [] ->
     parseFuncDecl d gen = Ok tt gen)
  /\ (forall g', parseFuncDecl d gen = Ok tt g' -> g' <> gen ->
        exists p ps n, paramList d = p :: ps /\ Field_Names p = [n]
                       /\ genMethod d gen = Ok tt g')
  /\ (forall p ps n, paramList d = p :: ps -> Field_Names p = [n] ->
        exists m, genMethod d gen = Ok tt (append_method m gen))
  /\ (forall v, parseFuncDecl d gen = Panic v ->
        v = nilPanic
        /\ exists p ps, paramList d = p :: ps
             /\ TypeOf (Package_TypesInfo (pkg gen)) (Field_Type p) = None).
Proof.
  rewrite parseFuncDecl_classify. split_and!.
  - intros p ps Hp Hn. unfold classify. rewrite Hp, Hn.
    by destruct (FuncDecl_Recv d).
  - intros g' H Hne.
    destruct (classify _ d) as [r|p n rest|] eqn:Hc; try done.
    + inversion H. congruence.
    + destruct (classify_Accept _ _ _ _ _ Hc) as (_ & Hp & Hn & _).
      exists p, rest, n. split_and!; try done.
      unfold genMethod. by rewrite (genMethodWith_run _ _ _ _ _ _ [] Hp Hn).
  - intros p ps n Hp Hn. eexists. unfold genMethod.
    by rewrite (genMethodWith_run _ _ _ _ _ _ [] Hp Hn).
  - intros v H. unfold classify in H.
    destruct (FuncDecl_Recv d); [done|].
    destruct (paramList d) as [|p ps]; [done|].
    destruct (Field_Names p) as [|x [|y l]]; try done.
    destruct (TypeOf _ _) as [t|] eqn:Ht.
    + by destruct (allowed t).
    + inversion H. split; [done|]. by exists p, ps.
Qed.

Lemma unnamed_rejected_named_read_witness :
  parseFuncDecl Sample.HideWindow (Sample.start Sample.sdl)
  = Ok tt (Sample.start Sample.sdl)
  /\ exists m, genMethod Sample.DestroyWindow (Sample.start Sample.sdl)
               = Ok tt (append_method m (Sample.start Sample.sdl)).
Proof.
  split.
  - eapply (unnamed_rejected_named_read Sample.HideWindow); reflexivity.
  - eapply (unnamed_rejected_named_read Sample.DestroyWindow); reflexivity.
Defined.

(** ** The run *)

Lemma outputFile_decls gen :
  File_Decls (outputFile gen) = Decl_FuncDecl <$> methods gen.
Proof. unfold outputFile. simpl. by rewrite foldl_snoc. Qed.

Lemma append_assoc (a b c : string) : (a +:+ b) +:+ c = a +:+ b +:+ c.
Proof.
  induction a as [|x a IH]; [reflexivity|].
  change (String x ((a +:+ b) +:+ c) = String x (a +:+ b +:+ c)).
  by rewrite IH.
Qed.

Lemma output_empty (output : string) : ~ 0 < String.length output <-> output = "".
Proof. destruct output; simpl; split; (done || lia). Qed.

Section RunFacts.
Context {FS : Type}.
Variable Load : string -> list Package + error.
Variable Node : FileSet -> File -> string + error.
Variable Source : string -> string + error.
Variable WriteFile : string -> string -> FS -> FS * option error.

Lemma loadPkg_Ok pkgPath (w w' : World FS) p :
  loadPkg Load pkgPath w = Ok p w' ->
  w' = w /\ Package_PkgPath p = pkgPath
  /\ exists pkgs, Load pkgPath = inl pkgs /\ p ∈ pkgs.
Proof.
  unfold loadPkg. destruct (Load pkgPath) as [pkgs|e]; [|done].
  destruct (List.find _ pkgs) as [q|] eqn:Hf; [|done].
  intros [= -> ->]. apply List.find_some in Hf as [Hin Hq].
  apply bool_decide_eq_true in Hq. split_and!; try done.
  exists pkgs. split; [done|]. by apply list_elem_of_In.
Qed.


Lemma printMethods_write_error gen output (w : World FS) text data fs' err :
  output <> "" ->
  Node (Package_Fset (pkg gen)) (outputFile gen) = inl text ->
  Source (pre +:+ LF +:+ text) = inl data ->
  WriteFile output data (fs w) = (fs', Some err) ->
  printMethods Node Source WriteFile gen output w
  = Err (WithStack err) {| fs := fs'; stdout := stdout w |}.
Proof.
  intros Hne HN HS HW. unfold printMethods. rewrite HN.
  rewrite append_assoc, HS.
  destruct (decide _) as [Hlen|Hlen].
  - unfold try, writeFile. by rewrite HW.
  - by apply output_empty in Hlen.
Qed.

(** A run is the three stages one after the other. *)
Lemma genMethods_stages pkgPath output (w : World FS) p gen :
  loadPkg Load pkgPath w = Ok p w ->
  parsePkg {| pkg := p; methods := [] |} = Ok tt gen ->
  genMethods Load Node Source WriteFile pkgPath output w
  = try (printMethods Node Source WriteFile gen output) w.
Proof.
  intros HL HP. unfold genMethods. run. unfold withGen.
  by rewrite HL, HP.
Qed.

End RunFacts.







(** C7.  A declaration that is neither a function nor a general
    declaration makes [parseDecl] panic; a general declaration is passed
    over with the state unchanged.  A package holding such a declaration
    anywhere makes the walk panic, and with it the run. *)
Theorem bad_declaration_panics :
  (forall from to gen,
     parseDecl (Decl_BadDecl from to) gen
     = Panic "support for declaration type *ast.BadDecl not yet implemented")
  /\ (forall g gen, parseDecl (Decl_GenDecl g) gen = Ok tt gen)
  /\ (forall gen from to,
        Decl_BadDecl from to ∈ allDecls (pkg gen) ->
        exists v, parsePkg gen = Panic v)
  /\ (forall FS Load Node Source WriteFile pkgPath output (w : World FS)
             p from to,
        loadPkg Load pkgPath w = Ok p w ->
        Decl_BadDecl from to ∈ allDecls p ->
        exists v,
          genMethods Load Node Source WriteFile pkgPath output w = Panic v).
Proof.
  assert (forall gen from to,
            Decl_BadDecl from to ∈ allDecls (pkg gen) ->
            exists v, parsePkg gen = Panic v) as Hwalk.
  { intros gen from to Hin.
    destruct (parsePkg_outcome gen) as [[Hno _]|[_ Hv]]; [|done].
    destruct Hno. apply Exists_exists. by exists (Decl_BadDecl from to). }
  split_and!; try done.
  intros FS Load Node Source WriteFile pkgPath output w p from to HL Hin.
  destruct (Hwalk {| pkg := p; methods := [] |} from to Hin) as [v Hv].
  exists v. unfold genMethods. run. unfold withGen. by rewrite HL, Hv.
Qed.

Lemma bad_declaration_panics_witness :
  exists v,
    genMethods (SampleRun.Load SampleRun.broken) SampleRun.Node
      SampleRun.Source os_WriteFile_disk SampleRun.sdlPath "methods.go"
      SampleRun.world = Panic v.
Proof.
  destruct bad_declaration_panics as (_ & _ & _ & H).
  apply (H Disk (SampleRun.Load SampleRun.broken) SampleRun.Node
           SampleRun.Source os_WriteFile_disk SampleRun.sdlPath "methods.go"
           SampleRun.world SampleRun.broken 1010%Z 1020%Z).
  - vm_compute. reflexivity.
  - unfold allDecls, SampleRun.broken. simpl.
    apply list_elem_of_further, list_elem_of_here.
Defined.

(** C8, as the specification words it, fails.  On a disk with room for
    twenty-one bytes, the run that writes [methods.go] returns an error,
    and the file then holds the first twenty-one bytes of the new text:
    neither what it held before nor the text that was to be written. *)
Lemma write_failure_leaves_partial_file :
  let data :=
    pre +:+ LF
    +:+ fileText "sdl"
          (SampleRun.render <$> (Decl_FuncDecl <$> visit Sample.sdl)) in
  exists err w',
    genMethods (SampleRun.Load Sample.sdl) SampleRun.Node SampleRun.Source
      os_WriteFile_disk SampleRun.sdlPath "methods.go" SampleRun.world
    = Err err w'
    /\ Disk_files (fs SampleRun.world) !! "methods.go" = Some "package sdl"
    /\ Disk_files (fs w') !! "methods.go" = Some "// Code generated by "
    /\ "// Code generated by " <> data.
Proof.
  eexists _, _. split_and!.
  - vm_compute. reflexivity.
  - vm_compute. reflexivity.
  - vm_compute. reflexivity.
  - vm_compute. discriminate.
Qed.

(** C8, amended.  When a path is given and [os.WriteFile] returns an
    error, [printMethods] returns that error wrapped and the run returns
    it wrapped once more; nothing is printed, and the file system is
    left exactly as [os.WriteFile] left it, with no step that restores
    or removes the file. *)
Theorem write_failure_aborts {FS} Load Node Source WriteFile
    pkgPath output (w : World FS) p gen text data fs' err :
  output <> "" ->
  loadPkg Load pkgPath w = Ok p w ->
  parsePkg {| pkg := p; methods := [] |} = Ok tt gen ->
  Node (Package_Fset p) (outputFile gen) = inl text ->
  Source (pre +:+ LF +:+ text) = inl data ->
  WriteFile output data (fs w) = (fs', Some err) ->
  printMethods Node Source WriteFile gen output w
  = Err (WithStack err) {| fs := fs'; stdout := stdout w |}
  /\ genMethods Load Node Source WriteFile pkgPath output w
     = Err (WithStack (WithStack err)) {| fs := fs'; stdout := stdout w |}.
Proof.
  intros Hne HL HP HN HS HW.
  assert (pkg gen = p) as Hpkg by (apply parsePkg_Ok in HP; by subst).
  rewrite <- Hpkg in HN.
  pose proof (printMethods_write_error Node Source WriteFile gen output w
                text data fs' err Hne HN HS HW) as HM.
  split; [done|].
  rewrite (genMethods_stages Load Node Source WriteFile _ _ _ _ _ HL HP).
  unfold try. by rewrite HM.
Qed.

Lemma write_failure_aborts_witness :
  exists err w',
    genMethods (SampleRun.Load Sample.sdl) SampleRun.Node SampleRun.Source
      os_WriteFile_disk SampleRun.sdlPath "methods.go" SampleRun.world
    = Err (WithStack (WithStack err)) w'.
Proof.
  set (data := pre +:+ LF
               +:+ fileText "sdl"
                     (SampleRun.render
                        <$> (Decl_FuncDecl <$> visit Sample.sdl))).
  set (gen := add (visit Sample.sdl) (Sample.start Sample.sdl)).
  destruct (write_failure_aborts (SampleRun.Load Sample.sdl) SampleRun.Node
              SampleRun.Source os_WriteFile_disk SampleRun.sdlPath
              "methods.go" SampleRun.world Sample.sdl gen
              (fileText "sdl"
                 (SampleRun.render <$> (Decl_FuncDecl <$> visit Sample.sdl)))
              data
              (fst (os_WriteFile_disk "methods.go" data SampleRun.disk))
              (Errorf "write: no space left on device"))
    as [_ H].
  - discriminate.
  - vm_compute. reflexivity.
  - vm_compute. reflexivity.
  - vm_compute. reflexivity.
  - reflexivity.
  - vm_compute. reflexivity.
  - eexists _, _. exact H.
Defined.

(** ** Further properties of the synthesized methods *)

(** Every method of the output splits the parameter list of the
    declaration it comes from: that declaration has no receiver, its
    first slot has exactly one name, the method's receiver is one slot
    holding a new identifier of that name and the first slot's own type
    expression, and the method's parameters are the remaining slots in
    order.  The result list is the original's, and the method has no
    type parameters. *)
Theorem signature_split p g' :
  parsePkg {| pkg := p; methods := [] |} = Ok tt g' ->
  Forall (fun m => exists d first n,
            Decl_FuncDecl d ∈ allDecls p
            /\ FuncDecl_Recv d = None
            /\ Field_Names first = [n]
            /\ paramList d = first :: paramList m
            /\ FuncDecl_Recv m
               = Some {| FieldList_Opening := NoPos;
                         FieldList_List :=
                           [ {| Field_Names := [NewIdent (Ident_Name n)];
                                Field_Type := Field_Type first |} ];
                         FieldList_Closing := NoPos |}
            /\ FuncType_Results (FuncDecl_Type m)
               = FuncType_Results (FuncDecl_Type d)
            /\ FuncType_TypeParams (FuncDecl_Type m) = None)
         (methods g').
Proof.
  intros ->%run_methods. apply Forall_forall. intros m Hm.
  destruct (visit_origin _ _ Hm) as (d & fp & n & rest & Hin & Hc & ->).
  destruct (classify_Accept _ _ _ _ _ Hc) as (Hr & Hp & Hn & _).
  exists d, fp, n. by split_and!.
Qed.

Lemma signature_split_witness :
  Forall (fun m => exists d first n,
            Decl_FuncDecl d ∈ allDecls Sample.sdl
            /\ FuncDecl_Recv d = None
            /\ Field_Names first = [n]
            /\ paramList d = first :: paramList m
            /\ FuncDecl_Recv m
               = Some {| FieldList_Opening := NoPos;
                         FieldList_List :=
                           [ {| Field_Names := [NewIdent (Ident_Name n)];
                                Field_Type := Field_Type first |} ];
                         FieldList_Closing := NoPos |}
            /\ FuncType_Results (FuncDecl_Type m)
               = FuncType_Results (FuncDecl_Type d)
            /\ FuncType_TypeParams (FuncDecl_Type m) = None)
         (visit Sample.sdl).
Proof.
  apply (signature_split Sample.sdl
           (add (visit Sample.sdl) (Sample.start Sample.sdl))).
  vm_compute. reflexivity.
Defined.

(** The methods of the output are, one for one and in order, made from
    the accepted declarations, and the name of each is a new identifier
    without position: the entry of [renameMethod] for the name of its
    own declaration when there is one, that name itself when the key is
    missing. *)
Theorem method_name_lookup p g' :
  parsePkg {| pkg := p; methods := [] |} = Ok tt g' ->
  Forall2 (fun d m =>
             wraps d m
             /\ Ident_NamePos (FuncDecl_Name m) = NoPos
             /\ (forall new,
                   renameMethod !! Ident_Name (FuncDecl_Name d) = Some new ->
                   Ident_Name (FuncDecl_Name m) = new)
             /\ (renameMethod !! Ident_Name (FuncDecl_Name d) = None ->
                 Ident_Name (FuncDecl_Name m) = Ident_Name (FuncDecl_Name d)))
          (accepted p) (methods g').
Proof.
  intros ->%run_methods. unfold accepted, visit.
  eapply Forall2_impl; [apply accepted_visit_in|].
  intros d m [_ (fp & n & rest & Hc & ->)].
  split; [by eapply buildMethod_wraps|].
  unfold buildMethod, Ident_String. simpl.
  split; [reflexivity|]. split.
  - intros new ->. reflexivity.
  - intros ->. reflexivity.
Qed.

Lemma method_name_lookup_witness :
  Forall2 (fun d m =>
             wraps d m
             /\ Ident_NamePos (FuncDecl_Name m) = NoPos
             /\ (forall new,
                   renameMethod !! Ident_Name (FuncDecl_Name d) = Some new ->
                   Ident_Name (FuncDecl_Name m) = new)
             /\ (renameMethod !! Ident_Name (FuncDecl_Name d) = None ->
                 Ident_Name (FuncDecl_Name m) = Ident_Name (FuncDecl_Name d)))
          [Sample.GetWindowSize; Sample.DestroyWindow]
          (visit Sample.sdl).
Proof.
  apply (method_name_lookup Sample.sdl
           (add (visit Sample.sdl) (Sample.start Sample.sdl))).
  vm_compute. reflexivity.
Defined.

(** The methods of the output are, one for one and in order, made from
    the accepted declarations, and each carries a comment group, never
    nil, with as many comments as the doc comment of its own
    declaration; for a declaration without doc comment the group is
    empty. *)
Theorem doc_never_nil p g' :
  parsePkg {| pkg := p; methods := [] |} = Ok tt g' ->
  Forall2 (fun d m => exists doc',
             wraps d m
             /\ FuncDecl_Doc m = Some doc'
             /\ (FuncDecl_Doc d = None -> CommentGroup_List doc' = [])
             /\ (forall doc, FuncDecl_Doc d = Some doc ->
                   length (CommentGroup_List doc')
                   = length (CommentGroup_List doc)))
          (accepted p) (methods g').
Proof.
  intros ->%run_methods. unfold accepted, visit.
  eapply Forall2_impl; [apply accepted_visit_in|].
  intros d m [_ (fp & n & rest & Hc & ->)].
  exists (copyDoc (FuncDecl_Doc d)).
  split; [by eapply buildMethod_wraps|]. split; [reflexivity|]. split.
  - by intros ->.
  - intros doc ->. rewrite copyDoc_Some. simpl. by rewrite length_fmap.
Qed.

Lemma doc_never_nil_witness :
  Forall2 (fun d m => exists doc',
             wraps d m
             /\ FuncDecl_Doc m = Some doc'
             /\ (FuncDecl_Doc d = None -> CommentGroup_List doc' = [])
             /\ (forall doc, FuncDecl_Doc d = Some doc ->
                   length (CommentGroup_List doc')
                   = length (CommentGroup_List doc)))
          [Sample.GetWindowSize; Sample.DestroyWindow]
          (visit Sample.sdl).
Proof.
  apply (doc_never_nil Sample.sdl
           (add (visit Sample.sdl) (Sample.start Sample.sdl))).
  vm_compute. reflexivity.
Defined.

(** The forwarding call of every method of the output has no ellipsis:
    a variadic last parameter is passed by name like any other. *)
Theorem call_without_ellipsis p g' :
  parsePkg {| pkg := p; methods := [] |} = Ok tt g' ->
  Forall (fun m => callEllipsis m = Some NoPos) (methods g').
Proof.
  intros ->%run_methods. apply Forall_forall. intros m Hm.
  destruct (visit_origin _ _ Hm) as (d & fp & n & rest & _ & _ & ->).
  unfold callEllipsis, bodyStmts, buildMethod. simpl.
  by destruct (hasReturn _).
Qed.

Lemma call_without_ellipsis_witness :
  Forall (fun m => callEllipsis m = Some NoPos) (visit SampleEdge.variadic)
  /\ length (visit SampleEdge.variadic) = 1.
Proof.
  split; [|vm_compute; reflexivity].
  apply (call_without_ellipsis SampleEdge.variadic
           (add (visit SampleEdge.variadic)
                (Sample.start SampleEdge.variadic))).
  vm_compute. reflexivity.
Defined.

(** What the generator produces it does not take up again: each method
    of the output, met as a declaration in any state, is skipped as
    already having a receiver. *)
Theorem generated_methods_skipped p g' :
  parsePkg {| pkg := p; methods := [] |} = Ok tt g' ->
  Forall (fun m => forall gen,
            classify (Package_TypesInfo (pkg gen)) m = Reject HasReceiver
            /\ parseDecl (Decl_FuncDecl m) gen = Ok tt gen)
         (methods g').
Proof.
  intros ->%run_methods. apply Forall_forall. intros m Hm gen.
  destruct (visit_origin _ _ Hm) as (d & fp & n & rest & _ & _ & ->).
  assert (classify (Package_TypesInfo (pkg gen))
            (buildMethod renameMethod d fp n rest) = Reject HasReceiver)
    as Hc by done.
  split; [done|].
  simpl. unfold try. by rewrite parseFuncDecl_classify, Hc.
Qed.

Lemma generated_methods_skipped_witness :
  Forall (fun m => forall gen,
            classify (Package_TypesInfo (pkg gen)) m = Reject HasReceiver
            /\ parseDecl (Decl_FuncDecl m) gen = Ok tt gen)
         (visit Sample.sdl).
Proof.
  apply (generated_methods_skipped Sample.sdl
           (add (visit Sample.sdl) (Sample.start Sample.sdl))).
  vm_compute. reflexivity.
Defined.

(** ** Further properties of the walk *)

Lemma steps_no_error {A} (body : A -> M Gen unit) out bad :
  steps body out bad -> forall x gen e s, body x gen <> Err e s.
Proof.
  intros H x gen e s Heq.
  destruct (H x gen) as [[_ H']|[_ [v H']]]; rewrite H' in Heq; discriminate.
Qed.

(** No stage of the walk ever returns an error: each one returns
    normally or panics, so the error branches that wrap and pass on an
    error of [genMethod], [parseFuncDecl], [parseDecl] and [parseFile]
    are never taken. *)
Theorem walk_never_errors gen e s :
  (forall d, genMethod d gen <> Err e s)
  /\ (forall d, parseFuncDecl d gen <> Err e s)
  /\ (forall d, parseDecl d gen <> Err e s)
  /\ (forall file, parseFile file gen <> Err e s)
  /\ parsePkg gen <> Err e s.
Proof.
  split_and!.
  - intros d. unfold genMethod, genMethodWith. run.
    destruct (FieldList_List _) as [|p ps]; simpl; [done|].
    destruct (Field_Names p) as [|n ns]; simpl; [done|]. done.
  - intros d. rewrite parseFuncDecl_classify.
    by destruct (classify _ d).
  - intros d. apply (steps_no_error _ _ _ parseDecl_steps).
  - intros file. apply (steps_no_error _ _ _ parseFile_steps).
  - intros H. destruct (parsePkg_outcome gen) as [[_ H']|[_ [v H']]];
      rewrite H' in H; discriminate.
Qed.

Lemma stuck_iff info d :
  stuck info d <->
  (exists from to, d = Decl_BadDecl from to)
  \/ (exists f p ps n,
        d = Decl_FuncDecl f /\ FuncDecl_Recv f = None
        /\ paramList f = p :: ps /\ Field_Names p = [n]
        /\ TypeOf info (Field_Type p) = None).
Proof.
  split.
  - intros Hs. destruct d as [from to|g|f]; simpl in Hs;
      [left; eauto | done |].
    right. unfold classify in Hs.
    destruct (FuncDecl_Recv f) eqn:Hr; [done|].
    destruct (paramList f) as [|p ps] eqn:Hp; [done|].
    destruct (Field_Names p) as [|n [|n' ns]] eqn:Hn; try done.
    destruct (TypeOf info (Field_Type p)) as [t|] eqn:Ht;
      [by destruct (allowed t)|].
    exists f, p, ps, n. by split_and!.
  - intros [(from & to & ->)|(f & p & ps & n & -> & Hr & Hp & Hn & Ht)];
      simpl; [done|].
    unfold classify. by rewrite Hr, Hp, Hn, Ht.
Qed.

(** The walk returns normally exactly when the package has no bad
    declaration and no function without receiver whose single-named
    first parameter lacks a recorded type; it then appends the methods
    of [visit] after those already there.  Otherwise it panics. *)
Theorem walk_returns_iff_nothing_stuck gen :
  let info := Package_TypesInfo (pkg gen) in
  ((exists g', parsePkg gen = Ok tt g')
   <-> ~ Exists (stuck info) (allDecls (pkg gen)))
  /\ ((exists v, parsePkg gen = Panic v)
      <-> Exists (stuck info) (allDecls (pkg gen)))
  /\ (forall g', parsePkg gen = Ok tt g' ->
        pkg g' = pkg gen /\ methods g' = methods gen ++ visit (pkg gen))
  /\ (forall d, stuck info d <->
        (exists from to, d = Decl_BadDecl from to)
        \/ (exists f p ps n,
              d = Decl_FuncDecl f /\ FuncDecl_Recv f = None
              /\ paramList f = p :: ps /\ Field_Names p = [n]
              /\ TypeOf info (Field_Type p) = None)).
Proof.
  intros info.
  assert (forall g', parsePkg gen = Ok tt g' ->
            pkg g' = pkg gen /\ methods g' = methods gen ++ visit (pkg gen))
    as Hret by (by intros g' ->%parsePkg_Ok).
  destruct (parsePkg_outcome gen) as [[Hno H]|[Hex [v H]]].
  - split_and!; [| |done|apply stuck_iff].
    + split; [done | eauto].
    + split; [intros [v Hv]; congruence | done].
  - split_and!; [| |done|apply stuck_iff].
    + split; [intros [g' Hg]; congruence | done].
    + split; [done | eauto].
Qed.

Lemma walk_returns_iff_nothing_stuck_witness :
  (exists v, parsePkg (Sample.start SampleRun.broken) = Panic v)
  /\ methods (add (visit Sample.sdl) (Sample.start Sample.sdl))
     = methods (Sample.start Sample.sdl) ++ visit Sample.sdl.
Proof.
  split.
  - apply (walk_returns_iff_nothing_stuck (Sample.start SampleRun.broken)).
    unfold allDecls, SampleRun.broken. simpl.
    apply Exists_cons_tl, Exists_cons_hd. exact I.
  - apply (walk_returns_iff_nothing_stuck (Sample.start Sample.sdl)).
    vm_compute. reflexivity.
Defined.

(** The walk reads the methods already collected only to append after
    them: started with any list, it returns or panics as it does when
    started with none, and on return the earlier list is followed by
    the same new methods. *)
Theorem walk_appends_after_earlier p ms :
  (forall g0, parsePkg {| pkg := p; methods := [] |} = Ok tt g0 ->
     parsePkg {| pkg := p; methods := ms |}
     = Ok tt {| pkg := p; methods := ms ++ methods g0 |})
  /\ (forall g', parsePkg {| pkg := p; methods := ms |} = Ok tt g' ->
        exists g0, parsePkg {| pkg := p; methods := [] |} = Ok tt g0
                   /\ g' = {| pkg := p; methods := ms ++ methods g0 |})
  /\ ((exists v, parsePkg {| pkg := p; methods := [] |} = Panic v)
      <-> (exists v, parsePkg {| pkg := p; methods := ms |} = Panic v)).
Proof.
  destruct (parsePkg_outcome {| pkg := p; methods := [] |})
    as [[Hno H0]|[Hex [v0 H0]]];
  destruct (parsePkg_outcome {| pkg := p; methods := ms |})
    as [[Hno' H1]|[Hex' [v1 H1]]]; simpl in *; try tauto.
  - split_and!.
    + intros g0 Hg. rewrite H0 in Hg. inversion Hg; subst. by rewrite H1.
    + intros g' Hg. rewrite H1 in Hg. inversion Hg; subst.
      eexists. split; [exact H0|]. done.
    + split; intros [v Hv]; congruence.
  - split_and!.
    + intros g0 Hg. congruence.
    + intros g' Hg. congruence.
    + split; eauto.
Qed.

Lemma walk_appends_after_earlier_witness :
  parsePkg {| pkg := Sample.sdl;
              methods := [Sample.Raise] |}
  = Ok tt {| pkg := Sample.sdl;
             methods := [Sample.Raise] ++ visit Sample.sdl |}.
Proof.
  apply (proj1 (walk_appends_after_earlier Sample.sdl [Sample.Raise])
           (add (visit Sample.sdl) (Sample.start Sample.sdl))).
  vm_compute. reflexivity.
Defined.

Lemma length_omap_synth info (l : list Decl) :
  length (omap (synth info) l) <= length (List.filter isFuncDecl l).
Proof.
  induction l as [|d l IH]; [done|].
  destruct d as [from to|g|f]; simpl; try done.
  destruct (classify info f); simpl;
    change (list_omap Decl FuncDecl (synth info) l)
      with (omap (synth info) l); lia.
Qed.

(** A walk that returns leaves the package as it was and appends new
    methods after the earlier ones.  The new methods are, one for one
    and in order, the wrappers of the accepted declarations, which are
    function declarations of the package picked in order, each at most
    once; so no declaration gives more than one method, and there are
    no more new methods than function declarations. *)
Theorem at_most_one_method_per_function gen g' :
  parsePkg gen = Ok tt g' ->
  pkg g' = pkg gen
  /\ methods gen `prefix_of` methods g'
  /\ (exists new,
        methods g' = methods gen ++ new
        /\ Forall2 wraps (accepted (pkg gen)) new)
  /\ accepted (pkg gen) `sublist_of` funcDecls (allDecls (pkg gen))
  /\ length (methods g')
     <= length (methods gen)
        + length (List.filter isFuncDecl (allDecls (pkg gen))).
Proof.
  intros ->%parsePkg_Ok. simpl.
  split; [reflexivity|]. split; [by eexists|]. split.
  { exists (visit (pkg gen)). split; [reflexivity|].
    eapply Forall2_impl; [apply accepted_wraps|]. by intros d m [_ H]. }
  split; [apply accepted_sublist|].
  rewrite length_app. unfold visit.
  pose proof (length_omap_synth (Package_TypesInfo (pkg gen))
                (allDecls (pkg gen))). lia.
Qed.

Lemma at_most_one_method_per_function_witness :
  exists new,
    methods (add (visit Sample.sdl) (Sample.start Sample.sdl))
    = methods (Sample.start Sample.sdl) ++ new
    /\ Forall2 wraps [Sample.GetWindowSize; Sample.DestroyWindow] new.
Proof.
  apply (at_most_one_method_per_function (Sample.start Sample.sdl)
           (add (visit Sample.sdl) (Sample.start Sample.sdl))).
  vm_compute. reflexivity.
Defined.

(** ** Further properties of the run *)

Lemma find_first {A} (f : A -> bool) (before : list A) x after :
  Forall (fun y => f y = false) before -> f x = true ->
  List.find f (before ++ x :: after) = Some x.
Proof.
  intros Hb Hx. induction Hb as [|y l Hy _ IH]; simpl.
  - by rewrite Hx.
  - by rewrite Hy.
Qed.

Lemma find_none {A} (f : A -> bool) (l : list A) :
  Forall (fun y => f y = false) l -> List.find f l = None.
Proof.
  intros H. induction H as [|y l Hy _ IH]; simpl; [done|]. by rewrite Hy.
Qed.

Section MoreRunFacts.
Context {FS : Type}.
Variable Load : string -> list Package + error.
Variable Node : FileSet -> File -> string + error.
Variable Source : string -> string + error.
Variable WriteFile : string -> string -> FS -> FS * option error.

(** [loadPkg] leaves the world alone.  It passes on an error of
    [packages.Load] wrapped, fails when no loaded package has the
    requested path, and otherwise returns the first loaded package whose
    path equals the requested one, whatever follows it in the list. *)
Theorem loadPkg_first_match pkgPath (w : World FS) :
  (forall e, Load pkgPath = inr e ->
     loadPkg Load pkgPath w = Err (WithStack e) w)
  /\ (forall pkgs, Load pkgPath = inl pkgs ->
        Forall (fun q => Package_PkgPath q <> pkgPath) pkgs ->
        exists e, loadPkg Load pkgPath w = Err e w)
  /\ (forall before p after, Load pkgPath = inl (before ++ p :: after) ->
        Forall (fun q => Package_PkgPath q <> pkgPath) before ->
        Package_PkgPath p = pkgPath ->
        loadPkg Load pkgPath w = Ok p w)
  /\ (forall p w', loadPkg Load pkgPath w = Ok p w' ->
        w' = w /\ Package_PkgPath p = pkgPath).
Proof.
  unfold loadPkg. split_and!.
  - by intros e ->.
  - intros pkgs -> Hall. rewrite find_none; [by eexists|].
    eapply Forall_impl; [exact Hall|]. intros q Hq.
    by apply bool_decide_eq_false.
  - intros before p after -> Hall Hp. rewrite (find_first _ before p after).
    + done.
    + eapply Forall_impl; [exact Hall|]. intros q Hq.
      by apply bool_decide_eq_false.
    + by apply bool_decide_eq_true.
  - intros p w' H. by destruct (loadPkg_Ok Load _ _ _ _ H) as (-> & -> & _).
Qed.

(** When [format.Node] or [format.Source] fails, [printMethods] returns
    the error wrapped and the world is as before: nothing is written to
    a file and nothing is printed. *)
Theorem format_failure_no_output gen output (w : World FS) :
  (forall e, Node (Package_Fset (pkg gen)) (outputFile gen) = inr e ->
     printMethods Node Source WriteFile gen output w = Err (WithStack e) w)
  /\ (forall text e,
        Node (Package_Fset (pkg gen)) (outputFile gen) = inl text ->
        Source (pre +:+ LF +:+ text) = inr e ->
        printMethods Node Source WriteFile gen output w
        = Err (WithStack e) w).
Proof.
  unfold printMethods. split.
  - by intros e ->.
  - intros text e -> HS. by rewrite append_assoc, HS.
Qed.

Lemma printMethods_Err gen output (w w' : World FS) e :
  printMethods Node Source WriteFile gen output w = Err e w' ->
  stdout w' = stdout w
  /\ (fs w' = fs w
      \/ (output <> ""
          /\ exists data err,
               WriteFile output data (fs w) = (fs w', Some err))).
Proof.
  unfold printMethods.
  destruct (Node _ _) as [text|e1]; [|intros [= _ <-]; by split; [|left]].
  destruct (Source _) as [data|e2]; [|intros [= _ <-]; by split; [|left]].
  destruct (decide _) as [Hlen|Hlen].
  - unfold try, writeFile.
    destruct (WriteFile output data (fs w)) as [fs' [err|]] eqn:HW; [|done].
    intros [= _ <-]. simpl. split; [done|]. right. split.
    + intros ->. simpl in Hlen. lia.
    + by exists data, err.
  - unfold print. by run.
Qed.

(** A run that returns an error has printed nothing, and it has left
    the file system untouched unless the error is that of
    [os.WriteFile] on the given path. *)
Theorem failed_run_prints_nothing pkgPath output (w w' : World FS) e :
  genMethods Load Node Source WriteFile pkgPath output w = Err e w' ->
  stdout w' = stdout w
  /\ (fs w' = fs w
      \/ (output <> ""
          /\ exists data err,
               WriteFile output data (fs w) = (fs w', Some err))).
Proof.
  unfold genMethods. run. unfold withGen.
  destruct (loadPkg Load pkgPath w) as [p w1|e1 w1|v] eqn:HL; [| |done].
  2:{ intros [= _ <-]. unfold loadPkg in HL.
      destruct (Load pkgPath) as [pkgs|e0].
      - destruct (List.find _ pkgs); [done|]. unfold throw in HL.
        inversion HL. by split; [|left].
      - unfold throw in HL. inversion HL. by split; [|left]. }
  destruct (loadPkg_Ok Load _ _ _ _ HL) as (-> & _).
  destruct (parsePkg _) as [[] gen|e1 g|v] eqn:HP; [| |done].
  2:{ intros [= _ <-]. by split; [|left]. }
  destruct (printMethods _ _ _ gen output w) as [[] w2|e2 w2|v] eqn:HM;
    [done| |done].
  intros [= _ <-]. by apply (printMethods_Err _ _ _ _ _ HM).
Qed.

End MoreRunFacts.

Lemma loadPkg_first_match_witness :
  loadPkg SampleEdge.LoadTwo SampleRun.sdlPath SampleRun.world
  = Ok Sample.sdl SampleRun.world
  /\ exists e, loadPkg (SampleRun.Load SampleEdge.other) SampleRun.sdlPath
                 SampleRun.world = Err e SampleRun.world.
Proof.
  split.
  - apply (loadPkg_first_match SampleEdge.LoadTwo SampleRun.sdlPath
             SampleRun.world) with (before := [SampleEdge.other]) (after := []).
    + reflexivity.
    + constructor; [vm_compute; discriminate | constructor].
    + reflexivity.
  - apply (loadPkg_first_match (SampleRun.Load SampleEdge.other)
             SampleRun.sdlPath SampleRun.world) with (pkgs := [SampleEdge.other]).
    + reflexivity.
    + constructor; [vm_compute; discriminate | constructor].
Defined.

Lemma format_failure_no_output_witness :
  printMethods SampleRun.Node SampleEdge.SourceFails os_WriteFile_disk
    (Sample.start Sample.sdl) "methods.go" SampleRun.world
  = Err (WithStack (Errorf "expected declaration")) SampleRun.world.
Proof.
  eapply (format_failure_no_output SampleRun.Node SampleEdge.SourceFails
            os_WriteFile_disk (Sample.start Sample.sdl) "methods.go"
            SampleRun.world).
  - reflexivity.
  - reflexivity.
Defined.

Lemma failed_run_prints_nothing_witness :
  stdout {| fs := fst (os_WriteFile_disk "methods.go"
                         (pre +:+ LF
                          +:+ fileText "sdl"
                                (SampleRun.render
                                   <$> (Decl_FuncDecl <$> visit Sample.sdl)))
                         SampleRun.disk);
            stdout := "" |}
  = stdout SampleRun.world.
Proof.
  eapply (failed_run_prints_nothing (SampleRun.Load Sample.sdl) SampleRun.Node
            SampleRun.Source os_WriteFile_disk SampleRun.sdlPath "methods.go"
            SampleRun.world _
            (WithStack (WithStack (Errorf "write: no space left on device")))).
  vm_compute. reflexivity.
Defined.



